(** * Sentiment analyzer gateway: [backend/main.py]

    A shallow embedding of the gateway's own logic: the label
    normalisation [clean_response], the two probes of the inference
    backend, and the [/analyze/] handler [analyze_sentiment]; then the
    [/health] handler and, from [frontend/app.py], the client's two
    calls, its colour and face for a label, and the gating of its
    analyze button.

    Python [str] values are embedded as [string], a character standing
    for the code point of its number, so only code points below 256 are
    represented.  On those [str.strip] and [str.lower] are exact.
    [str.capitalize] is exact on ASCII, and on the rest but for a first
    character U+00B5, U+00DF or U+00FF, whose title-case form is outside
    the range or has two characters; they are left as they are, and the
    statements that depend on it are stated for ASCII replies.

    [analyze_sentiment] is the body of the handler.  The route declares
    its text field as required, and the framework answers an empty field
    itself, before the handler runs: statements about what is served are
    made for a text that is not empty.  The listing's body, when its
    status is 200, is taken to be an object whose models entry, when
    there is one, is a list of objects with a name; on a body of another
    shape [get_available_models] raises outside the handler's [try], a
    case this embedding does not have. *)

From Stdlib Require Import String Ascii List ZArith Bool Lia QArith.
From Stdlib Require Import Numbers.DecimalString.
Import ListNotations.

Open Scope string_scope.
Open Scope Z_scope.

(** ** Python string primitives *)

Module PyStr.

(** [c.isspace()]: TAB, LF, VT, FF, CR, the four separators FS, GS, RS,
    US, the space, and NEL (U+0085) and the no-break space (U+00A0). *)
Definition isspace (c : ascii) : bool :=
  let n := Z.of_N (N_of_ascii c) in
  ((9 <=? n) && (n <=? 13)) || ((28 <=? n) && (n <=? 32))
  || (n =? 133) || (n =? 160).

(** [c.lower()]: A to Z, and U+00C0 to U+00DE but for the
    multiplication sign U+00D7. *)
Definition lower_char (c : ascii) : ascii :=
  let n := N_of_ascii c in
  if ((65 <=? n) && (n <=? 90))%N then ascii_of_N (n + 32)
  else if ((192 <=? n) && (n <=? 222) && negb (n =? 215))%N then ascii_of_N (n + 32)
  else c.

(** The title-case form of [c] when it is one character below 256: a to
    z, and U+00E0 to U+00FE but for the division sign U+00F7. *)
Definition upper_char (c : ascii) : ascii :=
  let n := N_of_ascii c in
  if ((97 <=? n) && (n <=? 122))%N then ascii_of_N (n - 32)
  else if ((224 <=? n) && (n <=? 254) && negb (n =? 247))%N then ascii_of_N (n - 32)
  else c.

Fixpoint map (f : ascii -> ascii) (s : string) : string :=
  match s with
  | EmptyString => EmptyString
  | String c s' => String (f c) (map f s')
  end.

(** [s.lower()] *)
Definition lower (s : string) : string := map lower_char s.

(** [s.capitalize()]: first character upper-cased, the rest lower-cased. *)
Definition capitalize (s : string) : string :=
  match s with
  | EmptyString => EmptyString
  | String c s' => String (upper_char c) (lower s')
  end.

Fixpoint lstrip (s : string) : string :=
  match s with
  | EmptyString => EmptyString
  | String c s' => if isspace c then lstrip s' else s
  end.

Fixpoint rstrip (s : string) : string :=
  match s with
  | EmptyString => EmptyString
  | String c s' =>
      match rstrip s' with
      | EmptyString => if isspace c then EmptyString else String c EmptyString
      | r => String c r
      end
  end.

(** [s.strip()] *)
Definition strip (s : string) : string := rstrip (lstrip s).

(** [word in text]: [word] occurs in [text] as a contiguous run. *)
Fixpoint contains (word text : string) : bool :=
  if prefix word text then true
  else match text with
       | EmptyString => false
       | String _ text' => contains word text'
       end.

(** [len(s)] *)
Definition len (s : string) : Z := Z.of_nat (String.length s).

(** [not s] *)
Definition falsy (s : string) : bool :=
  match s with EmptyString => true | _ => false end.

(** [x in l] for a list of strings *)
Definition mem (x : string) (l : list string) : bool :=
  existsb (String.eqb x) l.

(** [any(word in text for word in words)] *)
Definition any_in (words : list string) (text : string) : bool :=
  existsb (fun word => contains word text) words.

(** [str(n)] for an [int] *)
Definition str_int (n : Z) : string := NilEmpty.string_of_int (Z.to_int n).

(** [c * n]: a character repeated *)
Fixpoint repeat (c : ascii) (n : nat) : string :=
  match n with
  | O => EmptyString
  | S n' => String c (repeat c n')
  end.

End PyStr.

Import PyStr.

(** ** [clean_response] *)

Definition positive_words : list string :=
  ["positive"; "happy"; "good"; "great"; "excellent"; "wonderful"].
Definition negative_words : list string :=
  ["negative"; "sad"; "bad"; "terrible"; "awful"; "horrible"].
Definition neutral_words : list string :=
  ["neutral"; "mixed"; "okay"; "average"].

Definition clean_response (text : string) : string :=
  let text := lower (strip text) in
  if any_in positive_words text then "Positive"
  else if any_in negative_words text then "Negative"
  else if any_in neutral_words text then "Neutral"
  else if contains "positive" text then "Positive"
  else if contains "negative" text then "Negative"
  else if contains "neutral" text then "Neutral"
  else if falsy text then "Neutral" else capitalize text.

(** The normalisation with its second phase (the three literal checks
    after the keyword tests) taken out. *)
Definition clean_response_simplified (text : string) : string :=
  let text := lower (strip text) in
  if any_in positive_words text then "Positive"
  else if any_in negative_words text then "Negative"
  else if any_in neutral_words text then "Neutral"
  else if falsy text then "Neutral" else capitalize text.

(** The normalisation as the specification words it: keyword sets
    without the three label names, then the three literal substrings in
    order, then the capitalised raw reply. *)
Definition described_positive : list string :=
  ["happy"; "good"; "great"; "excellent"; "wonderful"].
Definition described_negative : list string :=
  ["sad"; "bad"; "terrible"; "awful"; "horrible"].
Definition described_neutral : list string :=
  ["mixed"; "okay"; "average"].

Definition clean_response_described (raw : string) : string :=
  let text := strip (lower raw) in
  if any_in described_positive text then "Positive"
  else if any_in described_negative text then "Negative"
  else if any_in described_neutral text then "Neutral"
  else if contains "positive" text then "Positive"
  else if contains "negative" text then "Negative"
  else if contains "neutral" text then "Neutral"
  else capitalize raw.

(** [w] occurs in [t]: the declarative reading of [w in t]. *)
Definition occurs_in (w t : string) : Prop :=
  exists pre suf, t = pre ++ w ++ suf.

Definition some_occurs (ws : list string) (t : string) : Prop :=
  exists w, In w ws /\ occurs_in w t.

(** Every character of [s] is ASCII. *)
Fixpoint ascii_only (s : string) : bool :=
  match s with
  | EmptyString => true
  | String c s' => (N_of_ascii c <? 128)%N && ascii_only s'
  end.

(** Every character of [s] is white space (true of the empty string). *)
Fixpoint only_whitespace (s : string) : bool :=
  match s with
  | EmptyString => true
  | String c s' => isspace c && only_whitespace s'
  end.

(** ** The inference backend as seen by the gateway *)

Definition OLLAMA_BASE_URL : string := "http://localhost:11434".
Definition DEFAULT_MODEL : string := "mistral:7b-instruct".

(** Exceptions by the class the handler's [except] clauses tell apart:
    [requests.exceptions.Timeout], any other
    [requests.exceptions.RequestException], FastAPI's [HTTPException],
    and any other [Exception]; each carries what [str(e)] is built from. *)
Inductive exn : Type :=
| Timeout (msg : string)
| RequestException (msg : string)
| HTTPException (status_code : Z) (detail : string)
| OtherException (msg : string).

(** Outcome of [requests.get(".../api/tags", timeout=5)]: the call raises
    a [RequestException], or replies with a status code and a body whose
    ["models"] entry, when present, lists the model names.  A body of
    another shape is not represented. *)
Inductive tags_outcome : Type :=
| TagsRaised
| TagsReplied (status_code : Z) (models : option (list string)).

(** JSON body of the generate request. *)
Record GeneratePayload : Type := {
  gp_model : string;
  gp_prompt : string;
  gp_stream : bool;
  gp_temperature : Q;
  gp_max_tokens : Z
}.

(** Outcome of [requests.post(".../api/generate", ...)]: the call raises,
    or replies with a status code and a body; reading the body
    ([response.json()], then the ["response"] entry and its [strip])
    raises, or gives the entry when there is one. *)
Inductive generate_outcome : Type :=
| GenRaised (e : exn)
| GenReplied (status_code : Z) (body : exn + option string).

(** What the world answers during one [/analyze/] call: the two listing
    requests in the order they are made, the generate request, and the
    clock read for the timestamp. *)
Record Upstream : Type := {
  probe_reply : tags_outcome;
  listing_reply : tags_outcome;
  generate_reply : GeneratePayload -> generate_outcome;
  clock : string
}.

(** Outbound calls, with their time-outs in seconds. *)
Inductive request : Type :=
| GET_tags (timeout : Z)
| POST_generate (payload : GeneratePayload) (timeout : Z).

Definition check_ollama_service (o : tags_outcome) : bool :=
  match o with
  | TagsReplied status_code _ => status_code =? 200
  | TagsRaised => false
  end.

Definition get_available_models (o : tags_outcome) : list string :=
  match o with
  | TagsReplied status_code models =>
      if status_code =? 200
      then match models with Some l => l | None => [] end
      else []
  | TagsRaised => []
  end.

(** ** [/analyze/] *)

Record AnalysisResult : Type := {
  sentiment : string;
  confidence : string;
  model_used : string;
  input_text : string;
  input_length : Z;
  raw_response : string;
  timestamp : string;
  status : string
}.

Inductive http_result : Type :=
| Success (body : AnalysisResult)
| HTTPError (status_code : Z) (detail : string).

Definition nl : string := String (ascii_of_nat 10) EmptyString.
Definition dquote : string := String (ascii_of_nat 34) EmptyString.

Definition make_prompt (text : string) : string :=
  "Analyze the sentiment of the following text and respond with ONLY one word: Positive, Negative, or Neutral."
  ++ nl ++ nl ++ "Text: " ++ dquote ++ text ++ dquote ++ nl ++ nl ++ "Sentiment:".

Definition make_payload (model_to_use text : string) : GeneratePayload :=
  {| gp_model := model_to_use;
     gp_prompt := make_prompt text;
     gp_stream := false;
     gp_temperature := (1 # 10)%Q;
     gp_max_tokens := 10 |}.

(** Lines 120-125: the requested model, or the default when none is
    given, replaced by the first listed model when the list is not empty
    and does not have it. *)
Definition select_model (model : option string) (available_models : list string) : string :=
  let model_to_use :=
    match model with
    | Some m => if falsy m then DEFAULT_MODEL else m
    | None => DEFAULT_MODEL
    end in
  match available_models with
  | first :: _ => if negb (mem model_to_use available_models) then first else model_to_use
  | [] => model_to_use
  end.

Definition canonical_labels : list string := ["Positive"; "Negative"; "Neutral"].

Section Gateway.

(** [str(e)] for an [HTTPException], which the framework defines. *)
Variable http_exception_str : Z -> string -> string.

Definition str_exn (e : exn) : string :=
  match e with
  | Timeout msg | RequestException msg | OtherException msg => msg
  | HTTPException status_code detail => http_exception_str status_code detail
  end.

(** The body of the [try] block. *)
Definition try_generate (up : Upstream) (text model_to_use : string) : exn + AnalysisResult :=
  match generate_reply up (make_payload model_to_use text) with
  | GenRaised e => inl e
  | GenReplied status_code body =>
      if negb (status_code =? 200)
      then inl (HTTPException 500 ("Ollama API error: " ++ str_int status_code))
      else
        match body with
        | inl e => inl e
        | inr entry =>
            let raw_sentiment := strip (match entry with Some s => s | None => "" end) in
            if falsy raw_sentiment
            then inl (HTTPException 500 "Empty response from model")
            else
              let cleaned_sentiment := clean_response raw_sentiment in
              inr {| sentiment := cleaned_sentiment;
                     confidence := if mem cleaned_sentiment canonical_labels
                                   then "high" else "medium";
                     model_used := model_to_use;
                     input_text := text;
                     input_length := len text;
                     raw_response := raw_sentiment;
                     timestamp := clock up;
                     status := "success" |}
        end
  end.

(** The [except] clauses, in order. *)
Definition on_exception (e : exn) : http_result :=
  match e with
  | Timeout _ =>
      HTTPError 504 "Request timeout. The model is taking too long to respond."
  | RequestException _ =>
      HTTPError 503 ("Failed to connect to Ollama service: " ++ str_exn e)
  | _ =>
      HTTPError 500 ("Unexpected error during sentiment analysis: " ++ str_exn e)
  end.

(** The handler: the outbound calls it made, and its result.  The
    framework calls it with the text field of the form, which it has
    checked to be present and not empty. *)
Definition analyze_sentiment (up : Upstream) (text : string) (model : option string)
  : list request * http_result :=
  if falsy text || falsy (strip text)
  then ([], HTTPError 400 "Text input is required")
  else
    let text := strip text in
    if len text <? 3
    then ([], HTTPError 400 "Text too short (minimum 3 characters)")
    else if len text >? 5000
    then ([], HTTPError 400 "Text too long (maximum 5,000 characters)")
    else if negb (check_ollama_service (probe_reply up))
    then ([GET_tags 5],
          HTTPError 503 "Ollama service is not available. Please ensure Ollama is running.")
    else
      let model_to_use := select_model model (get_available_models (listing_reply up)) in
      ([GET_tags 5; GET_tags 5; POST_generate (make_payload model_to_use text) 60],
       match try_generate up text model_to_use with
       | inr result => Success result
       | inl e => on_exception e
       end).

(** The text passes the handler's validation. *)
Definition valid_text (text : string) : Prop :=
  3 <= len (strip text) <= 5000.

(** The liveness probe fails. *)
Definition unreachable (up : Upstream) : Prop :=
  check_ollama_service (probe_reply up) = false.

Definition reachable (up : Upstream) : Prop :=
  check_ollama_service (probe_reply up) = true.

End Gateway.

(** ** [/health] *)

Module HealthReport.
Record t : Type := {
  status : string;
  ollama_service : string;
  available_models : list string;
  default_model : string;
  timestamp : string;
  api_version : string
}.
End HealthReport.

(** The handler of [GET /health]: the outbound calls it made, and the
    report.  The model list is asked for only when the probe passed. *)
Definition health_check (up : Upstream) : list request * HealthReport.t :=
  let ollama_status := check_ollama_service (probe_reply up) in
  let available_models :=
    if ollama_status then get_available_models (listing_reply up) else [] in
  ((if ollama_status then [GET_tags 5; GET_tags 5] else [GET_tags 5]),
   {| HealthReport.status := if ollama_status then "healthy" else "degraded";
      HealthReport.ollama_service := if ollama_status then "running" else "not available";
      HealthReport.available_models := available_models;
      HealthReport.default_model := DEFAULT_MODEL;
      HealthReport.timestamp := clock up;
      HealthReport.api_version := "1.0.0" |}).

(** Every keyword of the three lists. *)
Definition all_words : list string :=
  positive_words ++ negative_words ++ neutral_words.

(** ** The client: [frontend/app.py] *)

Module Frontend.

Definition BACKEND_URL : string := "http://localhost:8000".

(** A reply of the gateway as the client reads it: the status code,
    [response.json()], which raises or gives the decoded body, and
    [response.text]. *)
Record Reply (J : Type) : Type := {
  status_code : Z;
  json : exn + J;
  text : string
}.
Arguments status_code {J} _.
Arguments json {J} _.
Arguments text {J} _.

(** Outcome of a [requests] call of the client. *)
Inductive call_outcome (J : Type) : Type :=
| CallRaised (e : exn)
| CallReplied (r : Reply J).
Arguments CallRaised {J} _.
Arguments CallReplied {J} _.

(** [except requests.exceptions.RequestException] catches a [Timeout]
    too. *)
Definition is_request_exception (e : exn) : bool :=
  match e with
  | Timeout _ | RequestException _ => true
  | _ => false
  end.

(** [check_backend_health]: an exception that is not a
    [RequestException] is not caught and leaves the function. *)
Definition check_backend_health {J : Type} (o : call_outcome J) : exn + (bool * option J) :=
  let caught (e : exn) : exn + (bool * option J) :=
    if is_request_exception e then inr (false, None) else inl e in
  match o with
  | CallRaised e => caught e
  | CallReplied r =>
      if status_code r =? 200
      then match json r with
           | inr data => inr (true, Some data)
           | inl e => caught e
           end
      else inr (false, None)
  end.

(** The form posted to [/analyze/]. *)
Record FormData : Type := {
  fd_text : string;
  fd_model : option string
}.

(** A decoded body: the result object, another object with its
    ["detail"] entry when it has one (as [str] formats it), or a value
    that is not an object. *)
Inductive body_json : Type :=
| JResult (result : AnalysisResult)
| JObject (detail : option string)
| JOther.

(** What [analyze_sentiment] returns beside its flag: the decoded body,
    or the dictionary with the one ["error"] entry. *)
Inductive client_result : Type :=
| Data (data : body_json)
| Error (error : string).

(** [error_data.get("detail", error_detail)], with [response.text] when
    decoding or the lookup raises. *)
Definition error_detail_of (r : Reply body_json) : string :=
  match json r with
  | inr (JObject (Some detail)) => detail
  | inr (JObject None) | inr (JResult _) => "Unknown error"
  | inr JOther | inl _ => text r
  end.

(** The colours and the faces; a face is a one-character string, given
    here by its code point. *)
Definition green : string := "#28a745".
Definition red : string := "#dc3545".
Definition yellow : string := "#ffc107".
Definition smiling_face : N := 128522%N.
Definition disappointed_face : N := 128542%N.
Definition neutral_face : N := 128528%N.

Definition get_sentiment_color (sentiment : string) : string :=
  let sentiment_lower := lower sentiment in
  if contains "positive" sentiment_lower then green
  else if contains "negative" sentiment_lower then red
  else yellow.

Definition get_sentiment_emoji (sentiment : string) : N :=
  let sentiment_lower := lower sentiment in
  if contains "positive" sentiment_lower then smiling_face
  else if contains "negative" sentiment_lower then disappointed_face
  else neutral_face.

(** Line 200 of [main]: the [disabled] flag of the analyze button. *)
Definition analyze_button_disabled (user_text : string) (is_healthy : bool) : bool :=
  falsy user_text || (len (strip user_text) <? 3) || (len user_text >? 5000)
  || negb is_healthy.

(** Line 220 of [main]: the model passed on for the entry chosen in the
    select box. *)
Definition model_param (selected_model : string) : option string :=
  if negb (selected_model =? "default")%string then Some selected_model else None.

Section Client.

Variable http_exception_str : Z -> string -> string.

(** The client's [analyze_sentiment]; [post data timeout] is the outcome
    of the one request it makes. *)
Definition analyze_sentiment (post : FormData -> Z -> call_outcome body_json)
           (text : string) (model : option string) : bool * client_result :=
  let data :=
    {| fd_text := text;
       fd_model := match model with
                   | Some m => if falsy m then None else Some m
                   | None => None
                   end |} in
  let on_exception (e : exn) : bool * client_result :=
    match e with
    | Timeout _ =>
        (false, Error "Request timeout. The server is taking too long to respond.")
    | RequestException _ =>
        (false, Error ("Connection error: " ++ str_exn http_exception_str e))
    | _ =>
        (false, Error ("Unexpected error: " ++ str_exn http_exception_str e))
    end in
  match post data 30 with
  | CallRaised e => on_exception e
  | CallReplied r =>
      if status_code r =? 200
      then match json r with
           | inr body => (true, Data body)
           | inl e => on_exception e
           end
      else (false,
            Error ("Server error (" ++ str_int (status_code r) ++ "): "
                   ++ error_detail_of r))
  end.

End Client.

End Frontend.

(** ** The gateway as the client reaches it *)

(** A rendering of handler results as replies: how the web framework
    serves what the handlers return or raise. *)
Definition serves_analyze (serve : http_result -> Frontend.Reply Frontend.body_json) : Prop :=
  (forall result,
      Frontend.status_code (serve (Success result)) = 200 /\
      Frontend.json (serve (Success result)) = inr (Frontend.JResult result)) /\
  (forall code detail,
      Frontend.status_code (serve (HTTPError code detail)) = code /\
      Frontend.json (serve (HTTPError code detail)) =
      inr (Frontend.JObject (Some detail))).

Section Wire.

Variable http_exception_str : Z -> string -> string.
Variable serve : http_result -> Frontend.Reply Frontend.body_json.

(** The client's request answered by the gateway's handler in the world
    [up], for an exchange in which the answer reaches the client within
    its time-out: the passing of time is not represented. *)
Definition gateway_post (up : Upstream) (data : Frontend.FormData) (timeout : Z)
  : Frontend.call_outcome Frontend.body_json :=
  Frontend.CallReplied
    (serve (snd (analyze_sentiment http_exception_str up
                   (Frontend.fd_text data) (Frontend.fd_model data)))).

End Wire.

(** ** Sample worlds and inputs *)

(** [str(e)] as Starlette writes it for an [HTTPException]: the status
    code, a colon, the detail. *)
Definition starlette_str (status_code : Z) (detail : string) : string :=
  str_int status_code ++ ": " ++ detail.

(** A backend that refuses every connection. *)
Definition backend_down : Upstream :=
  {| probe_reply := TagsRaised;
     listing_reply := TagsRaised;
     generate_reply := fun _ => GenRaised (RequestException "Connection refused");
     clock := "2025-08-12T10:00:00" |}.

(** A backend that lists [models] and answers every generate request
    with [o]. *)
Definition backend_up (models : list string) (o : generate_outcome) : Upstream :=
  {| probe_reply := TagsReplied 200 (Some models);
     listing_reply := TagsReplied 200 (Some models);
     generate_reply := fun _ => o;
     clock := "2025-08-12T10:00:00" |}.

Definition replies (text : string) : generate_outcome :=
  GenReplied 200 (inr (Some text)).


(** A backend that lists one model and always answers "Positive". *)
Definition up_llama3 : Upstream := backend_up ["llama3"] (replies "Positive").

(** 5001 characters: a space, then 5000 letters. *)
Definition padded_text : string := String " " (repeat "a" 5000).

Definition sample_result : AnalysisResult :=
  {| sentiment := "Positive";
     confidence := "high";
     model_used := "llama3";
     input_text := "I love it";
     input_length := 9;
     raw_response := "Positive";
     timestamp := "2025-08-12T10:00:00";
     status := "success" |}.

(** The framework's rendering: status 200 and the result object, or the
    error's status and an object with its detail.  The text of the reply
    is left empty: the client reads it only when the body does not
    decode. *)
Definition fastapi_serve (r : http_result) : Frontend.Reply Frontend.body_json :=
  match r with
  | Success result =>
      {| Frontend.status_code := 200;
         Frontend.json := inr (Frontend.JResult result);
         Frontend.text := "" |}
  | HTTPError code detail =>
      {| Frontend.status_code := code;
         Frontend.json := inr (Frontend.JObject (Some detail));
         Frontend.text := "" |}
  end.

(** The reply to [GET /health] in the world [up]: the handler returns,
    so the status is 200 and the body is its report. *)
Definition health_reply_of (up : Upstream) : Frontend.Reply HealthReport.t :=
  {| Frontend.status_code := 200;
     Frontend.json := inr (snd (health_check up));
     Frontend.text := "" |}.

(** A backend that answers the probe, lists no model, and answers
    "Positive". *)
Definition up_no_models : Upstream := backend_up [] (replies "Positive").

(** ** Facts about the string primitives *)

Section StringFacts.

Lemma falsy_true (s : string) : falsy s = true <-> s = "".
Proof. destruct s; simpl; split; congruence. Qed.

Lemma falsy_false (s : string) : falsy s = false <-> s <> "".
Proof. destruct s; simpl; split; congruence. Qed.

Lemma len_nonneg (s : string) : 0 <= len s.
Proof. unfold len. lia. Qed.

Lemma len_empty_iff (s : string) : len s = 0 <-> s = "".
Proof.
  unfold len. destruct s; simpl; split; intros H; try reflexivity; discriminate.
Qed.

Lemma length_lstrip (s : string) : (String.length (lstrip s) <= String.length s)%nat.
Proof.
  induction s as [|c s IH]; simpl; [lia|].
  destruct (isspace c); simpl; lia.
Qed.

Lemma length_rstrip (s : string) : (String.length (rstrip s) <= String.length s)%nat.
Proof.
  induction s as [|c s IH]; simpl; [lia|].
  destruct (rstrip s) as [|d r]; [destruct (isspace c)|]; simpl in *; lia.
Qed.

Lemma len_strip_le (s : string) : len (strip s) <= len s.
Proof.
  unfold len, strip.
  pose proof (length_rstrip (lstrip s)). pose proof (length_lstrip s). lia.
Qed.

(** What [lstrip] leaves starts with a character that is not white space. *)
Lemma lstrip_head (s : string) :
  lstrip s = "" \/ exists c t, lstrip s = String c t /\ isspace c = false.
Proof.
  induction s as [|c s IH]; simpl; [now left|].
  destruct (isspace c) eqn:E; [exact IH|].
  right. now exists c, s.
Qed.

Lemma rstrip_keeps_head (c : ascii) (t : string) :
  isspace c = false -> exists t', rstrip (String c t) = String c t'.
Proof.
  intros E. simpl. destruct (rstrip t) as [|d r].
  - rewrite E. now exists "".
  - now exists (String d r).
Qed.

Lemma strip_head (s : string) :
  strip s = "" \/ exists c t, strip s = String c t /\ isspace c = false.
Proof.
  unfold strip. destruct (lstrip_head s) as [E | (c & t & E & Hc)]; rewrite E.
  - now left.
  - right. destruct (rstrip_keeps_head c t Hc) as [t' Ht'].
    exists c, t'. now split.
Qed.

Lemma lstrip_only_whitespace (s : string) : only_whitespace s = true -> lstrip s = "".
Proof.
  induction s as [|c s IH]; simpl; [reflexivity|].
  intros H. apply andb_true_iff in H as [Hc Hs]. rewrite Hc. auto.
Qed.

Lemma strip_only_whitespace (s : string) : only_whitespace s = true -> strip s = "".
Proof. intros H. unfold strip. now rewrite lstrip_only_whitespace. Qed.

(** A stripped string made of white space only is empty. *)
Lemma strip_not_only_whitespace (s : string) :
  only_whitespace (strip s) = true -> strip s = "".
Proof.
  destruct (strip_head s) as [E | (c & t & E & Hc)]; [auto|].
  rewrite E. simpl. rewrite Hc. discriminate.
Qed.

Lemma lower_empty_iff (s : string) : lower s = "" <-> s = "".
Proof. unfold lower. destruct s; simpl; split; congruence. Qed.

Lemma prefix_spec (w t : string) : prefix w t = true <-> exists suf, t = w ++ suf.
Proof.
  revert t. induction w as [|a w IH]; intros t.
  - split; [intros _; now exists t | intros _; now destruct t].
  - destruct t as [|b t]; simpl.
    + split; [discriminate | intros [suf H]; discriminate].
    + destruct (ascii_dec a b) as [->|N].
      * rewrite IH. split; intros [suf H]; exists suf; [now rewrite H | now injection H].
      * split; [discriminate | intros [suf H]; injection H; intros; now elim N].
Qed.

Lemma contains_unfold (w t : string) :
  contains w t =
  if prefix w t then true
  else match t with "" => false | String _ t' => contains w t' end.
Proof. destruct t; reflexivity. Qed.

Lemma contains_spec (w t : string) : contains w t = true <-> occurs_in w t.
Proof.
  unfold occurs_in. induction t as [|b t IH]; rewrite contains_unfold.
  - destruct (prefix w "") eqn:P.
    + split; [intros _|reflexivity].
      apply prefix_spec in P as [suf P]. now exists "", suf.
    + split; [discriminate|]. intros (pre & suf & H).
      destruct pre; simpl in H; [|discriminate].
      assert (prefix w "" = true) by (apply prefix_spec; now exists suf). congruence.
  - destruct (prefix w (String b t)) eqn:P.
    + split; [intros _|reflexivity].
      apply prefix_spec in P as [suf P]. now exists "", suf.
    + rewrite IH. split; intros (pre & suf & H).
      * exists (String b pre), suf. simpl. now rewrite H.
      * destruct pre as [|p pre]; simpl in H.
        -- assert (prefix w (String b t) = true) by (apply prefix_spec; now exists suf).
           congruence.
        -- injection H as _ H. now exists pre, suf.
Qed.

Lemma any_in_spec (ws : list string) (t : string) :
  any_in ws t = true <-> some_occurs ws t.
Proof.
  unfold any_in, some_occurs. rewrite existsb_exists.
  split; intros (w & Hin & H); exists w; split; auto; now apply contains_spec.
Qed.

Lemma any_in_false (ws : list string) (t : string) :
  any_in ws t = false <-> ~ some_occurs ws t.
Proof.
  rewrite <- any_in_spec. destruct (any_in ws t); split; congruence.
Qed.

Lemma any_in_head_false (w : string) (ws : list string) (t : string) :
  any_in (w :: ws) t = false -> contains w t = false.
Proof. unfold any_in. simpl. intros H. now apply orb_false_iff in H. Qed.

Lemma mem_spec (x : string) (l : list string) : mem x l = true <-> In x l.
Proof.
  unfold mem. rewrite existsb_exists. split.
  - intros (y & Hin & E). apply String.eqb_eq in E. now subst.
  - intros H. exists x. split; [assumption | apply String.eqb_refl].
Qed.

End StringFacts.

(** ** Lower-casing and trimming commute *)

Section LowerStrip.

Lemma isspace_lower_char (c : ascii) : isspace (lower_char c) = isspace c.
Proof.
  destruct c as [[] [] [] [] [] [] [] []]; reflexivity.
Qed.

Lemma lstrip_lower (s : string) : lstrip (lower s) = lower (lstrip s).
Proof.
  unfold lower. induction s as [|c s IH]; simpl; [reflexivity|].
  rewrite isspace_lower_char. destruct (isspace c); [exact IH | reflexivity].
Qed.

Lemma rstrip_lower (s : string) : rstrip (lower s) = lower (rstrip s).
Proof.
  unfold lower. induction s as [|c s IH]; simpl; [reflexivity|].
  rewrite IH, isspace_lower_char.
  destruct (rstrip s) as [|d r]; simpl; [destruct (isspace c)|]; reflexivity.
Qed.

Lemma strip_lower (s : string) : strip (lower s) = lower (strip s).
Proof. unfold strip. now rewrite lstrip_lower, rstrip_lower. Qed.

End LowerStrip.

(** ** Label normalisation *)

Section Normalisation.

Lemma clean_response_empty : clean_response "" = "Neutral".
Proof. reflexivity. Qed.

Lemma clean_response_whitespace (r : string) :
  only_whitespace r = true -> clean_response r = "Neutral".
Proof.
  intros H. unfold clean_response. rewrite (strip_only_whitespace r H). reflexivity.
Qed.

(** C1, as stated, fails: with a label name next to a keyword of another
    label the code answers by the label name, where the described
    two-phase order answers by the keyword; and on an empty reply the
    code answers "Neutral", not the capitalised (empty) reply. *)
Lemma clean_response_described_differs :
  clean_response "positive sad" = "Positive" /\
  clean_response_described "positive sad" = "Negative" /\
  clean_response "" = "Neutral" /\
  clean_response_described "" = "".
Proof. repeat split; reflexivity. Qed.

(** C1, amended: with [t] the lower-cased, trimmed reply (the two steps
    commute), the label is decided by occurrence of the words of three
    lists that hold the label names themselves, tried in the order
    Positive, Negative, Neutral; when no word occurs the result is [t]
    capitalised, or "Neutral" when [t] is empty. *)
Theorem clean_response_ordered_policy (r : string) :
  let t := lower (strip r) in
  t = strip (lower r) /\
  positive_words = "positive" :: described_positive /\
  negative_words = "negative" :: described_negative /\
  neutral_words = "neutral" :: described_neutral /\
  ((some_occurs positive_words t /\ clean_response r = "Positive") \/
   (~ some_occurs positive_words t /\ some_occurs negative_words t /\
    clean_response r = "Negative") \/
   (~ some_occurs positive_words t /\ ~ some_occurs negative_words t /\
    some_occurs neutral_words t /\ clean_response r = "Neutral") \/
   (~ some_occurs positive_words t /\ ~ some_occurs negative_words t /\
    ~ some_occurs neutral_words t /\ t <> "" /\ clean_response r = capitalize t) \/
   (~ some_occurs positive_words t /\ ~ some_occurs negative_words t /\
    ~ some_occurs neutral_words t /\ t = "" /\ clean_response r = "Neutral")).
Proof.
  intros t. split; [symmetry; apply strip_lower|].
  do 3 (split; [reflexivity|]).
  unfold clean_response. fold t.
  destruct (any_in positive_words t) eqn:P.
  { left. split; [now apply any_in_spec | reflexivity]. }
  destruct (any_in negative_words t) eqn:N.
  { right; left. repeat split; [now apply any_in_false | now apply any_in_spec]. }
  destruct (any_in neutral_words t) eqn:U.
  { right; right; left.
    repeat split; [now apply any_in_false | now apply any_in_false | now apply any_in_spec]. }
  rewrite (any_in_head_false _ _ _ P), (any_in_head_false _ _ _ N),
    (any_in_head_false _ _ _ U).
  apply any_in_false in P, N, U.
  destruct (falsy t) eqn:F.
  - right; right; right; right. apply falsy_true in F. now repeat split.
  - right; right; right; left. apply falsy_false in F. now repeat split.
Qed.

(** C2, as stated, fails on "Pos": no keyword and no label name occurs in
    "pos" (it is the other way round), so the fallback answers. *)
Lemma clean_response_Pos_not_Positive : clean_response "Pos" <> "Positive".
Proof. vm_compute. discriminate. Qed.

(** C2, amended: the four other examples are as listed, and "Pos" is
    returned capitalised, as "Pos". *)
Theorem clean_response_examples :
  clean_response "I feel very happy today" = "Positive" /\
  clean_response "This is absolutely terrible" = "Negative" /\
  clean_response "It was rather average" = "Neutral" /\
  clean_response "Pos" = "Pos" /\
  clean_response "banana" = "Banana".
Proof. repeat split; reflexivity. Qed.

(** C8: the three literal checks after the keyword tests never decide the
    result, since each label name heads the keyword list tried before:
    the normalisation equals the one without them. *)
Theorem clean_response_second_phase_dead (r : string) :
  clean_response r = clean_response_simplified r /\
  In "positive" positive_words /\
  In "negative" negative_words /\
  In "neutral" neutral_words.
Proof.
  split; [|repeat split; simpl; auto].
  unfold clean_response, clean_response_simplified.
  set (t := lower (strip r)).
  destruct (any_in positive_words t) eqn:P; [reflexivity|].
  destruct (any_in negative_words t) eqn:N; [reflexivity|].
  destruct (any_in neutral_words t) eqn:U; [reflexivity|].
  now rewrite (any_in_head_false _ _ _ P), (any_in_head_false _ _ _ N),
    (any_in_head_false _ _ _ U).
Qed.

End Normalisation.

(** ** More on trimming and case *)

Section StripCase.

Lemma rstrip_idem (s : string) : rstrip (rstrip s) = rstrip s.
Proof.
  induction s as [|c s IH]; [reflexivity|].
  simpl. destruct (rstrip s) as [|d r] eqn:E.
  - destruct (isspace c) eqn:Hc; [reflexivity|]. simpl. now rewrite Hc.
  - change (rstrip (String c (String d r)))
      with (match rstrip (String d r) with
            | "" => if isspace c then "" else String c ""
            | String _ _ as r0 => String c r0
            end).
    now rewrite IH.
Qed.

Lemma lstrip_fixed (s : string) :
  (s = "" \/ exists c t, s = String c t /\ isspace c = false) -> lstrip s = s.
Proof.
  intros [-> | (c & t & -> & Hc)]; [reflexivity|]. simpl. now rewrite Hc.
Qed.

Lemma strip_idem (s : string) : strip (strip s) = strip s.
Proof.
  unfold strip at 1. rewrite (lstrip_fixed (strip s) (strip_head s)).
  unfold strip. apply rstrip_idem.
Qed.

Lemma lstrip_app_whitespace (a s : string) :
  only_whitespace a = true -> lstrip (a ++ s) = lstrip s.
Proof.
  induction a as [|c a IH]; simpl; [reflexivity|].
  intros H. apply andb_true_iff in H as [Hc Ha]. rewrite Hc. auto.
Qed.

Lemma rstrip_only_whitespace (b : string) : only_whitespace b = true -> rstrip b = "".
Proof.
  induction b as [|c b IH]; simpl; [reflexivity|].
  intros H. apply andb_true_iff in H as [Hc Hb]. now rewrite (IH Hb), Hc.
Qed.

Lemma rstrip_app_whitespace (s b : string) :
  only_whitespace b = true -> rstrip (s ++ b) = rstrip s.
Proof.
  intros Hb. induction s as [|c s IH]; simpl.
  - now apply rstrip_only_whitespace.
  - now rewrite IH.
Qed.

Lemma strip_app_whitespace (s b : string) :
  only_whitespace b = true -> strip (s ++ b) = strip s.
Proof.
  intros Hb. unfold strip. induction s as [|c s IH]; simpl.
  - now rewrite (lstrip_only_whitespace b Hb).
  - destruct (isspace c); [exact IH|].
    change (String c (s ++ b)) with (String c s ++ b).
    now apply rstrip_app_whitespace.
Qed.

(** White space around a text does not change what [strip] gives. *)
Lemma strip_padded (a s b : string) :
  only_whitespace a = true -> only_whitespace b = true ->
  strip (a ++ s ++ b) = strip s.
Proof.
  intros Ha Hb. unfold strip at 1. rewrite (lstrip_app_whitespace a _ Ha).
  now apply strip_app_whitespace.
Qed.

Lemma lower_char_idem (c : ascii) : lower_char (lower_char c) = lower_char c.
Proof. destruct c as [[] [] [] [] [] [] [] []]; reflexivity. Qed.

Lemma lower_upper_char (c : ascii) : lower_char (upper_char c) = lower_char c.
Proof. destruct c as [[] [] [] [] [] [] [] []]; reflexivity. Qed.

Lemma lower_idem (s : string) : lower (lower s) = lower s.
Proof.
  unfold lower. induction s as [|c s IH]; simpl; [reflexivity|].
  now rewrite lower_char_idem, IH.
Qed.

Lemma lower_capitalize (s : string) : lower (capitalize s) = lower s.
Proof.
  destruct s as [|c s]; [reflexivity|].
  unfold capitalize. unfold lower at 1. simpl.
  rewrite lower_upper_char. fold (lower (lower s)). now rewrite lower_idem.
Qed.

(** The normalised text [lower (strip r)] is a fixed point of both steps. *)
Lemma normal_form_fixed (r : string) :
  let t := lower (strip r) in lower t = t /\ strip t = t.
Proof.
  intros t. unfold t. split.
  - apply lower_idem.
  - now rewrite strip_lower, strip_idem.
Qed.

End StripCase.

(** ** The [/analyze/] handler *)

Section Analyze.

Variable http_exception_str : Z -> string -> string.

Local Abbreviation analyze := (analyze_sentiment http_exception_str).

Lemma validation_passes (text : string) :
  valid_text text ->
  falsy text || falsy (strip text) = false /\
  (len (strip text) <? 3) = false /\
  (len (strip text) >? 5000) = false.
Proof.
  unfold valid_text. intros [Hlo Hhi].
  assert (Hs : strip text <> "").
  { intros E. rewrite E in Hlo. unfold len in Hlo. simpl in Hlo. lia. }
  assert (Ht : text <> "").
  { intros E. subst text. now apply Hs. }
  apply falsy_false in Hs, Ht. rewrite Hs, Ht.
  repeat split.
  - apply Z.ltb_ge. lia.
  - rewrite Z.gtb_ltb. apply Z.ltb_ge. lia.
Qed.

(** Validation rejects exactly the texts that are not [valid_text], before
    any outbound call. *)
Lemma analyze_invalid (up : Upstream) (text : string) (model : option string) :
  ~ valid_text text ->
  exists detail, analyze up text model = ([], HTTPError 400 detail).
Proof.
  intros H. unfold analyze_sentiment.
  destruct (falsy text || falsy (strip text)); [eauto|].
  destruct (len (strip text) <? 3) eqn:Lo; [eauto|].
  destruct (len (strip text) >? 5000) eqn:Hi; [eauto|].
  exfalso. apply H. unfold valid_text.
  apply Z.ltb_ge in Lo. rewrite Z.gtb_ltb in Hi. apply Z.ltb_ge in Hi. lia.
Qed.

Lemma analyze_unreachable (up : Upstream) (text : string) (model : option string) :
  valid_text text -> unreachable up ->
  analyze up text model =
  ([GET_tags 5],
   HTTPError 503 "Ollama service is not available. Please ensure Ollama is running.").
Proof.
  intros Hv Hu. destruct (validation_passes text Hv) as (V1 & V2 & V3).
  unfold analyze_sentiment. rewrite V1, V2, V3.
  unfold unreachable in Hu. now rewrite Hu.
Qed.

Lemma analyze_reachable (up : Upstream) (text : string) (model : option string) :
  valid_text text -> reachable up ->
  let used := select_model model (get_available_models (listing_reply up)) in
  analyze up text model =
  ([GET_tags 5; GET_tags 5; POST_generate (make_payload used (strip text)) 60],
   match try_generate up (strip text) used with
   | inr result => Success result
   | inl e => on_exception http_exception_str e
   end).
Proof.
  intros Hv Hr. destruct (validation_passes text Hv) as (V1 & V2 & V3).
  unfold analyze_sentiment. rewrite V1, V2, V3.
  unfold reachable in Hr. now rewrite Hr.
Qed.

Lemma on_exception_is_error (e : exn) :
  exists code detail, on_exception http_exception_str e = HTTPError code detail.
Proof. destruct e; simpl; eauto. Qed.

(** A success went through validation, the probe, and the [try] block. *)
Lemma analyze_success_inv (up : Upstream) (text : string) (model : option string)
      (res : AnalysisResult) :
  snd (analyze up text model) = Success res ->
  valid_text text /\ reachable up /\
  try_generate up (strip text)
    (select_model model (get_available_models (listing_reply up))) = inr res.
Proof.
  unfold analyze_sentiment.
  destruct (falsy text || falsy (strip text)); [discriminate|].
  destruct (len (strip text) <? 3) eqn:Lo; [discriminate|].
  destruct (len (strip text) >? 5000) eqn:Hi; [discriminate|].
  destruct (check_ollama_service (probe_reply up)) eqn:Pr; [|discriminate].
  simpl.
  destruct (try_generate _ _ _) as [e|r] eqn:T.
  - destruct (on_exception_is_error e) as (c & d & E). rewrite E. discriminate.
  - intros H. injection H as ->. repeat split; auto.
    + apply Z.ltb_ge in Lo. lia.
    + rewrite Z.gtb_ltb in Hi. apply Z.ltb_ge in Hi. lia.
Qed.

Lemma try_generate_success_inv (up : Upstream) (text used : string) (res : AnalysisResult) :
  try_generate up text used = inr res ->
  exists entry,
    let raw := strip (match entry with Some s => s | None => "" end) in
    generate_reply up (make_payload used text) = GenReplied 200 (inr entry) /\
    raw <> "" /\
    res = {| sentiment := clean_response raw;
             confidence := if mem (clean_response raw) canonical_labels
                           then "high" else "medium";
             model_used := used;
             input_text := text;
             input_length := len text;
             raw_response := raw;
             timestamp := clock up;
             status := "success" |}.
Proof.
  unfold try_generate.
  destruct (generate_reply up (make_payload used text)) as [e|code body]; [discriminate|].
  destruct (code =? 200) eqn:C; simpl; [|discriminate].
  apply Z.eqb_eq in C. subst code.
  destruct body as [e|entry]; [discriminate|].
  destruct (falsy (strip _)) eqn:F; [discriminate|].
  intros H. injection H as <-. exists entry. simpl.
  repeat split. now apply falsy_false.
Qed.

(** A text that passes validation is never answered 400. *)
Lemma analyze_valid_not_400 (up : Upstream) (text : string) (model : option string) :
  valid_text text -> forall detail, snd (analyze up text model) <> HTTPError 400 detail.
Proof.
  intros Hv detail.
  destruct (check_ollama_service (probe_reply up)) eqn:Pr.
  - rewrite (analyze_reachable up text model Hv Pr). simpl.
    destruct (try_generate _ _ _) as [[]|r]; simpl; discriminate.
  - rewrite (analyze_unreachable up text model Hv Pr). discriminate.
Qed.

(** The 400 answers are exactly those to texts whose trimmed length is
    outside 3..5000. *)
Lemma rejected_400_iff_invalid (up : Upstream) (text : string) (model : option string) :
  (exists detail, snd (analyze up text model) = HTTPError 400 detail) <->
  ~ valid_text text.
Proof.
  split.
  - intros [detail H] Hv. exact (analyze_valid_not_400 up text model Hv detail H).
  - intros H. destruct (analyze_invalid up text model H) as [detail E].
    exists detail. now rewrite E.
Qed.

Lemma strip_strip_nonempty (s : string) : strip s <> "" -> strip (strip s) <> "".
Proof.
  intros H. destruct (strip_head s) as [E | (c & t & E & Hc)]; [contradiction|].
  rewrite E. unfold strip at 1. simpl. rewrite Hc.
  destruct (rstrip_keeps_head c t Hc) as [t' ->]. discriminate.
Qed.

(** In the embedding, white space around the text changes nothing. *)
Lemma analyze_padded (up : Upstream) (a b text : string) (model : option string) :
  only_whitespace a = true -> only_whitespace b = true ->
  analyze up (a ++ text ++ b) model = analyze up text model.
Proof.
  intros Ha Hb. unfold analyze_sentiment.
  rewrite (strip_padded a text b Ha Hb).
  destruct (falsy (strip text)) eqn:F.
  - now rewrite !orb_true_r.
  - assert (Ht : falsy text = false).
    { destruct text; [discriminate F | reflexivity]. }
    assert (Hp : falsy (a ++ text ++ b) = false).
    { destruct text as [|c t]; [discriminate Ht|].
      destruct a; reflexivity. }
    now rewrite Ht, Hp.
Qed.

(** C3, amended: with the backend unreachable, a text that passes
    validation is answered 503 after the one probe; a text that is not
    empty and does not pass validation is answered 400 before any probe,
    whether the backend is reachable or not. *)
Theorem unreachable_503_after_validation (text : string) (model : option string) :
  falsy text = false ->
  (forall up,
      unreachable up -> valid_text text ->
      analyze up text model =
      ([GET_tags 5],
       HTTPError 503 "Ollama service is not available. Please ensure Ollama is running.")) /\
  (forall up,
      ~ valid_text text ->
      exists detail, analyze up text model = ([], HTTPError 400 detail)).
Proof.
  intros _. split.
  - intros up Hu Hv. now apply analyze_unreachable.
  - intros up. apply analyze_invalid.
Qed.

(** C4, amended: a text that is not empty is answered 400 exactly when
    its trimmed form has fewer than 3 or more than 5000 characters: so is
    every text of 1 or 2 characters, and a text of more than 5000
    characters is not when its trimmed form has 3 to 5000. *)
Theorem length_bounds_400 (up : Upstream) (text : string) (model : option string) :
  falsy text = false ->
  ((exists detail, snd (analyze up text model) = HTTPError 400 detail) <->
   len (strip text) < 3 \/ 5000 < len (strip text)) /\
  (len text <= 2 ->
   exists detail, analyze up text model = ([], HTTPError 400 detail)) /\
  (5000 < len text -> 3 <= len (strip text) <= 5000 ->
   forall detail, snd (analyze up text model) <> HTTPError 400 detail).
Proof.
  intros _. split; [|split].
  - rewrite rejected_400_iff_invalid. unfold valid_text. lia.
  - intros H. apply analyze_invalid. unfold valid_text.
    pose proof (len_strip_le text). lia.
  - intros _ Hv. now apply analyze_valid_not_400.
Qed.

(** C5, amended: the model sent to the backend and reported in
    [model_used] is the first listed one when a name is supplied that a
    non-empty list does not have; with no name supplied it is the default
    when the list is empty or has the default, and the first listed one
    otherwise. *)
Theorem model_selection (up : Upstream) (text : string) (model : option string) :
  valid_text text -> reachable up ->
  let available := get_available_models (listing_reply up) in
  let used := select_model model available in
  fst (analyze up text model) =
    [GET_tags 5; GET_tags 5; POST_generate (make_payload used (strip text)) 60] /\
  (forall res, snd (analyze up text model) = Success res -> model_used res = used) /\
  (forall m first rest,
      model = Some m -> m <> "" -> available = first :: rest -> ~ In m available ->
      used = first) /\
  (model = None -> available = [] \/ In DEFAULT_MODEL available ->
   used = DEFAULT_MODEL /\ DEFAULT_MODEL = "mistral:7b-instruct") /\
  (forall first rest,
      model = None -> available = first :: rest -> ~ In DEFAULT_MODEL available ->
      used = first).
Proof.
  intros Hv Hr available used.
  split; [|split; [|split; [|split]]].
  - now rewrite (analyze_reachable up text model Hv Hr).
  - intros res H. apply analyze_success_inv in H as (_ & _ & T).
    apply try_generate_success_inv in T as (entry & _ & _ & ->). reflexivity.
  - intros m first rest -> Hm Ha Hn. unfold used, select_model.
    apply falsy_false in Hm. rewrite Hm, Ha.
    destruct (mem m (first :: rest)) eqn:M; [|reflexivity].
    apply mem_spec in M. rewrite Ha in Hn. contradiction.
  - intros -> Ha. split; [|reflexivity]. unfold used, select_model.
    destruct available as [|first rest] eqn:E; [reflexivity|].
    destruct Ha as [Ha|Ha]; [discriminate|].
    apply mem_spec in Ha. now rewrite Ha.
  - intros first rest -> Ha Hn. unfold used, select_model. rewrite Ha.
    destruct (mem DEFAULT_MODEL (first :: rest)) eqn:M; [|reflexivity].
    apply mem_spec in M. rewrite Ha in Hn. contradiction.
Qed.


(** C7: in a successful response the confidence is "high" exactly when
    the sentiment is one of "Positive", "Negative", "Neutral", and
    "medium" exactly when it is not. *)
Theorem confidence_tag (up : Upstream) (text : string) (model : option string)
        (res : AnalysisResult) :
  snd (analyze up text model) = Success res ->
  (confidence res = "high" <-> In (sentiment res) ["Positive"; "Negative"; "Neutral"]) /\
  (confidence res = "medium" <-> ~ In (sentiment res) ["Positive"; "Negative"; "Neutral"]).
Proof.
  intros H. apply analyze_success_inv in H as (_ & _ & T).
  apply try_generate_success_inv in T as (entry & _ & _ & ->).
  cbn [sentiment confidence].
  set (label := clean_response _).
  change ["Positive"; "Negative"; "Neutral"] with canonical_labels.
  destruct (mem label canonical_labels) eqn:M.
  - apply mem_spec in M.
    split; split; intro X;
      solve [assumption | reflexivity | discriminate X | contradiction].
  - assert (N : ~ In label canonical_labels).
    { intros I. apply mem_spec in I. congruence. }
    split; split; intro X;
      solve [assumption | reflexivity | discriminate X | contradiction].
Qed.

(** C9: a reply that is empty or all white space is normalised to
    "Neutral"; no successful response has such a raw reply, the test on
    the normalised text for emptiness never succeeds there, and a
    backend that sends such a reply is answered 500. *)
Theorem whitespace_reply_neutral (r : string) :
  only_whitespace r = true ->
  clean_response r = "Neutral" /\
  (forall up text model res,
      snd (analyze up text model) = Success res ->
      raw_response res <> r /\
      sentiment res = clean_response (raw_response res) /\
      falsy (lower (strip (raw_response res))) = false) /\
  (forall up text model,
      valid_text text -> reachable up ->
      generate_reply up
        (make_payload (select_model model (get_available_models (listing_reply up)))
                      (strip text)) = GenReplied 200 (inr (Some r)) ->
      snd (analyze up text model) =
      HTTPError 500 ("Unexpected error during sentiment analysis: "
                     ++ http_exception_str 500 "Empty response from model")).
Proof.
  intros W. split; [now apply clean_response_whitespace|]. split.
  - intros up text model res H. apply analyze_success_inv in H as (_ & _ & T).
    apply try_generate_success_inv in T as (entry & _ & Hraw & ->).
    cbn [raw_response sentiment].
    set (reply := match entry with Some s => s | None => "" end) in *.
    split; [|split].
    + intros E. apply Hraw. apply strip_not_only_whitespace. now rewrite E.
    + reflexivity.
    + apply falsy_false. rewrite lower_empty_iff.
      now apply strip_strip_nonempty.
  - intros up text model Hv Hr G.
    rewrite (analyze_reachable up text model Hv Hr). simpl.
    unfold try_generate. rewrite G. simpl.
    now rewrite (strip_only_whitespace r W).
Qed.

(** C10: a successful response echoes the trimmed text, not the text as
    submitted, and gives the length of the trimmed text; the bounds of 3
    and 5000 characters are tested on the trimmed text: a text that is
    not empty is answered 400 exactly when its trimmed length is outside
    them, and a success stays the same success under any white space put
    around the text. *)
Theorem echo_is_stripped (up : Upstream) (text : string) (model : option string) :
  falsy text = false ->
  ((exists detail, snd (analyze up text model) = HTTPError 400 detail) <->
   ~ (3 <= len (strip text) <= 5000)) /\
  (forall res,
      snd (analyze up text model) = Success res ->
      input_text res = strip text /\
      input_length res = len (strip text) /\
      3 <= len (strip text) <= 5000 /\
      (forall a b,
          only_whitespace a = true -> only_whitespace b = true ->
          snd (analyze up (a ++ text ++ b) model) = Success res)).
Proof.
  intros _. split; [apply rejected_400_iff_invalid|].
  intros res H. pose proof H as H'.
  apply analyze_success_inv in H as (Hv & _ & T).
  apply try_generate_success_inv in T as (entry & _ & _ & ->). simpl.
  split; [reflexivity | split; [reflexivity | split; [exact Hv|]]].
  intros a b Ha Hb. now rewrite (analyze_padded up a b text model Ha Hb).
Qed.

End Analyze.

(** ** The handler on the sample worlds *)

Section Samples.

(** C3, as stated, fails: a two-character text sent while the backend is
    down is answered 400, and the backend is not even probed. *)
Lemma invalid_text_unreachable_is_400 :
  unreachable backend_down /\
  analyze_sentiment starlette_str backend_down "hi" None =
  ([], HTTPError 400 "Text too short (minimum 3 characters)").
Proof. split; reflexivity. Qed.

Lemma unreachable_503_witness :
  falsy "I love it" = false /\
  unreachable backend_down /\
  valid_text "I love it" /\
  analyze_sentiment starlette_str backend_down "I love it" None =
  ([GET_tags 5],
   HTTPError 503 "Ollama service is not available. Please ensure Ollama is running.").
Proof.
  assert (Hv : valid_text "I love it") by (unfold valid_text, len; simpl; lia).
  split; [reflexivity | split; [reflexivity | split; [exact Hv|]]].
  exact (proj1 (unreachable_503_after_validation starlette_str "I love it" None eq_refl)
           backend_down eq_refl Hv).
Defined.

(** C4, as stated, fails above the upper bound: a text of 5001
    characters that starts with a space is trimmed to 5000 characters and
    analysed. *)
Lemma padded_text_not_400 :
  len padded_text = 5001 /\
  match snd (analyze_sentiment starlette_str up_llama3 padded_text None) with
  | Success res => input_length res = 5000 /\ sentiment res = "Positive"
  | HTTPError _ _ => False
  end.
Proof. split; [vm_compute; reflexivity | vm_compute; split; reflexivity]. Qed.

Lemma length_bounds_400_witness :
  falsy "hi" = false /\
  len "hi" <= 2 /\
  exists detail,
    analyze_sentiment starlette_str up_llama3 "hi" None = ([], HTTPError 400 detail).
Proof.
  assert (H : len "hi" <= 2) by (unfold len; simpl; lia).
  split; [reflexivity | split; [exact H|]].
  exact (proj1 (proj2 (length_bounds_400 starlette_str up_llama3 "hi" None eq_refl)) H).
Defined.

(** C5, as stated, fails when no name is supplied and the backend does
    not list the default: the first listed model is sent and reported. *)
Lemma default_replaced_when_not_listed :
  analyze_sentiment starlette_str up_llama3 "I love it" None =
  ([GET_tags 5; GET_tags 5; POST_generate (make_payload "llama3" "I love it") 60],
   Success sample_result) /\
  model_used sample_result <> "mistral:7b-instruct".
Proof. split; [reflexivity | discriminate]. Qed.

Lemma model_selection_witness :
  valid_text "I love it" /\
  reachable up_llama3 /\
  fst (analyze_sentiment starlette_str up_llama3 "I love it" (Some "mistral:latest")) =
  [GET_tags 5; GET_tags 5; POST_generate (make_payload "llama3" "I love it") 60].
Proof.
  assert (Hv : valid_text "I love it") by (unfold valid_text, len; simpl; lia).
  split; [exact Hv | split; [reflexivity|]].
  exact (proj1 (model_selection starlette_str up_llama3 "I love it"
                  (Some "mistral:latest") Hv eq_refl)).
Defined.



Lemma confidence_tag_witness :
  snd (analyze_sentiment starlette_str up_llama3 "I love it" None) = Success sample_result /\
  (confidence sample_result = "high" <->
   In (sentiment sample_result) ["Positive"; "Negative"; "Neutral"]).
Proof.
  split; [reflexivity|].
  exact (proj1 (confidence_tag starlette_str up_llama3 "I love it" None
                  sample_result eq_refl)).
Defined.

Lemma whitespace_reply_neutral_witness :
  only_whitespace "   " = true /\ clean_response "   " = "Neutral".
Proof.
  split; [reflexivity|].
  exact (proj1 (whitespace_reply_neutral starlette_str "   " eq_refl)).
Defined.

Lemma echo_is_stripped_witness :
  falsy "  I love it  " = false /\
  snd (analyze_sentiment starlette_str up_llama3 "  I love it  " None) =
  Success sample_result /\
  input_text sample_result = strip "  I love it  " /\
  input_length sample_result = len (strip "  I love it  ").
Proof.
  split; [reflexivity | split; [reflexivity|]].
  pose proof (proj2 (echo_is_stripped starlette_str up_llama3 "  I love it  " None
                       eq_refl) sample_result eq_refl) as (H1 & H2 & _).
  exact (conj H1 H2).
Defined.

End Samples.

(** ** More on the label normalisation *)

Section NormalisationMore.

(** The result depends on the reply through its normalised text only. *)
Lemma clean_response_by_normal_form (a b : string) :
  lower (strip a) = lower (strip b) -> clean_response a = clean_response b.
Proof. intros H. unfold clean_response. now rewrite H. Qed.

Lemma any_in_app (xs ys : list string) (t : string) :
  any_in (xs ++ ys) t = any_in xs t || any_in ys t.
Proof. unfold any_in. apply existsb_app. Qed.

Lemma any_in_all_words (t : string) :
  any_in all_words t =
  any_in positive_words t || any_in negative_words t || any_in neutral_words t.
Proof. unfold all_words. now rewrite !any_in_app, orb_assoc. Qed.

(** Either a keyword decides (or the text is empty) and the result is a
    canonical label, or no keyword occurs and the result is the
    capitalised text. *)
Lemma clean_response_cases (r : string) :
  let t := lower (strip r) in
  (In (clean_response r) canonical_labels /\ (any_in all_words t = true \/ t = "")) \/
  (any_in all_words t = false /\ t <> "" /\ clean_response r = capitalize t).
Proof.
  intros t. rewrite any_in_all_words. unfold clean_response. fold t.
  destruct (any_in positive_words t) eqn:P; [left; simpl; auto|].
  destruct (any_in negative_words t) eqn:N; [left; simpl; auto|].
  destruct (any_in neutral_words t) eqn:U; [left; simpl; auto|].
  rewrite (any_in_head_false _ _ _ P), (any_in_head_false _ _ _ N),
    (any_in_head_false _ _ _ U).
  destruct (falsy t) eqn:F.
  - left. apply falsy_true in F. simpl. auto.
  - right. apply falsy_false in F. auto.
Qed.

Lemma canonical_fixed (l : string) : In l canonical_labels -> clean_response l = l.
Proof. intros [<- | [<- | [<- | []]]]; reflexivity. Qed.

(** A lower-case text whose capitalised form is a canonical label is a
    label name, hence a keyword. *)
Lemma capitalize_canonical (t : string) :
  lower t = t -> In (capitalize t) canonical_labels -> any_in all_words t = true.
Proof.
  intros Ht H.
  assert (E : In t ["positive"; "negative"; "neutral"]).
  { rewrite <- Ht, <- lower_capitalize.
    destruct H as [<- | [<- | [<- | []]]]; simpl; auto. }
  destruct E as [<- | [<- | [<- | []]]]; reflexivity.
Qed.

(** X1: the normalisation never returns the empty string. *)
Theorem clean_response_never_empty (r : string) : falsy (clean_response r) = false.
Proof.
  destruct (clean_response_cases r) as [[H _] | (_ & Ht & ->)].
  - destruct H as [<- | [<- | [<- | []]]]; reflexivity.
  - destruct (lower (strip r)); [contradiction | reflexivity].
Qed.

(** X2: for an ASCII reply, normalising the label that the normalisation
    returned changes nothing. *)
Theorem clean_response_idempotent (r : string) :
  ascii_only r = true ->
  clean_response (clean_response r) = clean_response r.
Proof.
  intros _.
  destruct (clean_response_cases r) as [[H _] | (_ & _ & E)].
  - now apply canonical_fixed.
  - rewrite E at 1. apply clean_response_by_normal_form.
    destruct (normal_form_fixed r) as [Hl Hs].
    now rewrite <- strip_lower, lower_capitalize, Hl, Hs.
Qed.

(** X3: white space around the reply and the case of its letters do not
    change the label. *)
Theorem clean_response_ignores_padding_and_case (a b r r' : string) :
  only_whitespace a = true -> only_whitespace b = true -> lower r' = lower r ->
  clean_response (a ++ r' ++ b) = clean_response r.
Proof.
  intros Ha Hb E. apply clean_response_by_normal_form.
  now rewrite (strip_padded a r' b Ha Hb), <- !strip_lower, E.
Qed.

(** X4: the result is one of the three canonical labels exactly when a
    keyword occurs in the normalised reply or that text is empty; the
    capitalising fallback never produces a canonical label. *)
Theorem clean_response_canonical_iff_keyword (r : string) :
  In (clean_response r) ["Positive"; "Negative"; "Neutral"] <->
  some_occurs all_words (lower (strip r)) \/ lower (strip r) = "".
Proof.
  change ["Positive"; "Negative"; "Neutral"] with canonical_labels.
  rewrite <- any_in_spec.
  destruct (clean_response_cases r) as [[H K] | (K & Ht & E)].
  - split; auto.
  - split.
    + intros H. left. rewrite E in H.
      apply capitalize_canonical; [apply normal_form_fixed | exact H].
    + intros [H | H]; [congruence | contradiction].
Qed.

End NormalisationMore.

(** ** More on the [/analyze/] handler *)

Section AnalyzeMore.

Variable http_exception_str : Z -> string -> string.

Local Abbreviation analyze := (analyze_sentiment http_exception_str).

Lemma valid_text_dec (text : string) : {valid_text text} + {~ valid_text text}.
Proof.
  unfold valid_text.
  destruct (Z_le_dec 3 (len (strip text))); [|right; lia].
  destruct (Z_le_dec (len (strip text)) 5000); [left; lia | right; lia].
Qed.

(** The three ways through the handler. *)
Lemma analyze_cases (up : Upstream) (text : string) (model : option string) :
  (~ valid_text text /\
   exists detail, analyze up text model = ([], HTTPError 400 detail)) \/
  (valid_text text /\ unreachable up /\
   analyze up text model =
   ([GET_tags 5],
    HTTPError 503 "Ollama service is not available. Please ensure Ollama is running.")) \/
  (valid_text text /\ reachable up /\
   let used := select_model model (get_available_models (listing_reply up)) in
   analyze up text model =
   ([GET_tags 5; GET_tags 5; POST_generate (make_payload used (strip text)) 60],
    match try_generate up (strip text) used with
    | inr result => Success result
    | inl e => on_exception http_exception_str e
    end)).
Proof.
  destruct (valid_text_dec text) as [Hv | Hn].
  - destruct (check_ollama_service (probe_reply up)) eqn:Pr.
    + right; right. split; [exact Hv | split; [exact Pr|]].
      now apply analyze_reachable.
    + right; left. split; [exact Hv | split; [exact Pr|]].
      now apply analyze_unreachable.
  - left. split; [exact Hn | now apply analyze_invalid].
Qed.

Lemma on_exception_codes (e : exn) :
  exists code detail,
    on_exception http_exception_str e = HTTPError code detail /\ In code [500; 503; 504].
Proof. destruct e; simpl; eauto 10. Qed.

Lemma analyze_error_codes (up : Upstream) (text : string) (model : option string)
      (code : Z) (detail : string) :
  snd (analyze up text model) = HTTPError code detail -> In code [400; 500; 503; 504].
Proof.
  destruct (analyze_cases up text model)
    as [(_ & d & E) | [(_ & _ & E) | (_ & _ & E)]]; rewrite E; simpl.
  - intros H. injection H as <- _. auto.
  - intros H. injection H as <- _. auto.
  - destruct (try_generate _ _ _) as [e|r]; [|discriminate].
    destruct (on_exception_codes e) as (c & d & -> & Hc).
    intros H. injection H as <- _. simpl in Hc. simpl. tauto.
Qed.

Lemma select_model_listed (model : option string) (available : list string) :
  available <> [] -> In (select_model model available) available.
Proof.
  intros Hne. unfold select_model.
  destruct available as [|first rest]; [contradiction|].
  set (m := match model with Some m => if falsy m then DEFAULT_MODEL else m
                        | None => DEFAULT_MODEL end).
  destruct (mem m (first :: rest)) eqn:M; cbn [negb].
  - now apply mem_spec.
  - now left.
Qed.

Lemma select_model_requested (m : string) (available : list string) :
  m <> "" -> In m available \/ available = [] ->
  select_model (Some m) available = m.
Proof.
  intros Hm H. unfold select_model. apply falsy_false in Hm. rewrite Hm.
  destruct available as [|first rest]; [reflexivity|].
  destruct H as [H | H]; [|discriminate].
  apply mem_spec in H. now rewrite H.
Qed.

(** Whether the label is canonical, read off the normalised text. *)
Lemma canonical_mem_spec (r : string) :
  mem (clean_response r) canonical_labels = true <->
  any_in all_words (lower (strip r)) = true \/ lower (strip r) = "".
Proof.
  rewrite mem_spec.
  destruct (clean_response_cases r) as [[H K] | (K & Ht & E)].
  - split; auto.
  - split.
    + intros H. left. rewrite E in H.
      apply capitalize_canonical; [apply normal_form_fixed | exact H].
    + intros [H | H]; [congruence | contradiction].
Qed.

(** X5: in a successful response the confidence is "high" exactly when
    one of the keywords occurs in the lower-cased raw reply. *)
Theorem confidence_high_iff_keyword
        (up : Upstream) (text : string) (model : option string) (res : AnalysisResult) :
  snd (analyze up text model) = Success res ->
  (confidence res = "high" <-> some_occurs all_words (lower (raw_response res))).
Proof.
  intros H. apply analyze_success_inv in H as (_ & _ & T).
  apply try_generate_success_inv in T as (entry & _ & Hraw & ->).
  cbn [confidence raw_response].
  set (reply := match entry with Some s => s | None => "" end) in *.
  rewrite <- any_in_spec.
  pose proof (canonical_mem_spec (strip reply)) as K.
  rewrite strip_idem in K.
  destruct (mem (clean_response (strip reply)) canonical_labels).
  - split; [intros _ | reflexivity].
    destruct (proj1 K eq_refl) as [A | A]; [exact A|].
    rewrite lower_empty_iff in A. contradiction.
  - split; [discriminate|]. intros A.
    assert (false = true) by (apply K; now left). discriminate.
Qed.

(** X6: the handler succeeds exactly when the text passes validation,
    the probe passes, and the generate call is answered with status 200
    and a reply that is not empty once trimmed. *)
Theorem success_iff (up : Upstream) (text : string) (model : option string) :
  (exists res, snd (analyze up text model) = Success res) <->
  (valid_text text /\ reachable up /\
   exists entry,
     generate_reply up
       (make_payload (select_model model (get_available_models (listing_reply up)))
                     (strip text)) = GenReplied 200 (inr entry) /\
     strip (match entry with Some s => s | None => "" end) <> "").
Proof.
  split.
  - intros [res H]. apply analyze_success_inv in H as (Hv & Hr & T).
    apply try_generate_success_inv in T as (entry & G & Hraw & _).
    split; [exact Hv | split; [exact Hr | exists entry; split; assumption]].
  - intros (Hv & Hr & entry & G & Hraw).
    rewrite (analyze_reachable http_exception_str up text model Hv Hr). simpl.
    unfold try_generate. rewrite G. simpl.
    apply falsy_false in Hraw. rewrite Hraw. eauto.
Qed.

(** X7: an error of the handler has status 400, 500, 503 or 504. *)
Theorem error_status_codes (up : Upstream) (text : string) (model : option string)
        (code : Z) (detail : string) :
  snd (analyze up text model) = HTTPError code detail ->
  code = 400 \/ code = 500 \/ code = 503 \/ code = 504.
Proof.
  intros H. apply analyze_error_codes in H. simpl in H.
  repeat (destruct H as [H | H]; [auto|]). contradiction.
Qed.

(** X9: white space around a submitted text that is not empty changes
    nothing: the outbound calls and the result are those for the text
    itself. *)
Theorem analyze_ignores_padding
        (up : Upstream) (a b text : string) (model : option string) :
  falsy text = false ->
  only_whitespace a = true -> only_whitespace b = true ->
  falsy (a ++ text ++ b) = false /\
  analyze up (a ++ text ++ b) model = analyze up text model.
Proof.
  intros Ht Ha Hb. split.
  - destruct text as [|c t]; [discriminate Ht|]. destruct a; reflexivity.
  - now apply analyze_padded.
Qed.

(** X10: when the backend lists at least one model, the model sent with
    the generate request and reported in a successful response is one of
    the listed models. *)
Theorem used_model_is_listed (up : Upstream) (text : string) (model : option string) :
  get_available_models (listing_reply up) <> [] ->
  (forall payload timeout,
      In (POST_generate payload timeout) (fst (analyze up text model)) ->
      In (gp_model payload) (get_available_models (listing_reply up))) /\
  (forall res,
      snd (analyze up text model) = Success res ->
      In (model_used res) (get_available_models (listing_reply up))).
Proof.
  intros Hne. pose proof (select_model_listed model _ Hne) as L. split.
  - intros payload timeout.
    destruct (analyze_cases up text model)
      as [(_ & d & E) | [(_ & _ & E) | (_ & _ & E)]]; rewrite E; simpl.
    + tauto.
    + intros [H | []]. discriminate.
    + intros [H | [H | [H | []]]]; try discriminate.
      injection H as <- _. exact L.
  - intros res H. apply analyze_success_inv in H as (_ & _ & T).
    apply try_generate_success_inv in T as (entry & _ & _ & ->). exact L.
Qed.

(** X11: a requested model is used as given when the backend lists it,
    and also when the list is empty (no model listed, or the listing
    failed): then it is sent without having been checked. *)
Theorem requested_model_honoured
        (up : Upstream) (text m : string) :
  valid_text text -> reachable up -> m <> "" ->
  In m (get_available_models (listing_reply up)) \/
  get_available_models (listing_reply up) = [] ->
  fst (analyze up text (Some m)) =
    [GET_tags 5; GET_tags 5; POST_generate (make_payload m (strip text)) 60] /\
  (forall res, snd (analyze up text (Some m)) = Success res -> model_used res = m).
Proof.
  intros Hv Hr Hm H.
  pose proof (select_model_requested m _ Hm H) as S. split.
  - rewrite (analyze_reachable http_exception_str up text (Some m) Hv Hr).
    simpl. now rewrite S.
  - intros res R. apply analyze_success_inv in R as (_ & _ & T).
    apply try_generate_success_inv in T as (entry & _ & _ & ->). exact S.
Qed.

End AnalyzeMore.

(** ** [/health] and [/analyze/] in one world *)

Section Health.

Variable http_exception_str : Z -> string -> string.

Local Abbreviation analyze := (analyze_sentiment http_exception_str).

Lemma health_degraded_iff (up : Upstream) :
  HealthReport.status (snd (health_check up)) = "degraded" <-> unreachable up.
Proof.
  unfold health_check, unreachable. simpl.
  destruct (check_ollama_service (probe_reply up)); split; congruence.
Qed.

Lemma on_exception_not_unavailable (e : exn) :
  on_exception http_exception_str e <>
  HTTPError 503 "Ollama service is not available. Please ensure Ollama is running.".
Proof. destruct e; simpl; discriminate. Qed.

(** X12: for a text that passes validation, [/analyze/] answers 503
    "Ollama service is not available" exactly when [/health] reports
    "degraded" in the same world; a degraded report lists no model and
    costs one listing request. *)
Theorem unavailable_iff_degraded (up : Upstream) (text : string) (model : option string) :
  valid_text text ->
  let report := snd (health_check up) in
  (snd (analyze up text model) =
   HTTPError 503 "Ollama service is not available. Please ensure Ollama is running."
   <-> HealthReport.status report = "degraded") /\
  (HealthReport.status report = "degraded" ->
   HealthReport.ollama_service report = "not available" /\
   HealthReport.available_models report = [] /\
   fst (health_check up) = [GET_tags 5]).
Proof.
  intros Hv report. split.
  - unfold report. rewrite health_degraded_iff. split.
    + intros H. destruct (check_ollama_service (probe_reply up)) eqn:Pr; [|exact Pr].
      rewrite (analyze_reachable http_exception_str up text model Hv Pr) in H.
      simpl in H. destruct (try_generate _ _ _) as [e|r]; [|discriminate].
      now apply on_exception_not_unavailable in H.
    + intros Hu. now rewrite (analyze_unreachable http_exception_str up text model Hv Hu).
  - unfold report. rewrite health_degraded_iff. unfold unreachable, health_check.
    intros ->. now repeat split.
Qed.

End Health.

(** ** The client *)

Section ClientFacts.

Variable http_exception_str : Z -> string -> string.

Local Abbreviation analyze := (analyze_sentiment http_exception_str).
Local Abbreviation client_analyze := (Frontend.analyze_sentiment http_exception_str).

(** X13: the colour and the face shown for a label always go together:
    green with the smiling face, red with the disappointed one, yellow
    with the neutral one. *)
Theorem colour_and_face_agree (sentiment : string) :
  (Frontend.get_sentiment_color sentiment = Frontend.green /\
   Frontend.get_sentiment_emoji sentiment = Frontend.smiling_face) \/
  (Frontend.get_sentiment_color sentiment = Frontend.red /\
   Frontend.get_sentiment_emoji sentiment = Frontend.disappointed_face) \/
  (Frontend.get_sentiment_color sentiment = Frontend.yellow /\
   Frontend.get_sentiment_emoji sentiment = Frontend.neutral_face).
Proof.
  unfold Frontend.get_sentiment_color, Frontend.get_sentiment_emoji.
  destruct (contains "positive" (lower sentiment)); [now left|].
  destruct (contains "negative" (lower sentiment)); [right; now left | right; now right].
Qed.

(** X14: on a label that the gateway's normalisation returns for an
    ASCII reply, the client's substring tests amount to equality with
    the label: green for "Positive", red for "Negative", yellow for
    anything else. *)
Theorem colour_of_gateway_label (r : string) :
  ascii_only r = true ->
  let label := clean_response r in
  Frontend.get_sentiment_color label =
  (if (label =? "Positive")%string then Frontend.green
   else if (label =? "Negative")%string then Frontend.red
   else Frontend.yellow) /\
  Frontend.get_sentiment_emoji label =
  (if (label =? "Positive")%string then Frontend.smiling_face
   else if (label =? "Negative")%string then Frontend.disappointed_face
   else Frontend.neutral_face).
Proof.
  intros _ label. unfold label.
  destruct (clean_response_cases r) as [[H _] | (K & Ht & E)].
  - destruct H as [<- | [<- | [<- | []]]]; split; reflexivity.
  - set (t := lower (strip r)) in *. rewrite E.
    assert (Hl : lower (capitalize t) = t).
    { rewrite lower_capitalize. apply normal_form_fixed. }
    assert (Hc : ~ In (capitalize t) canonical_labels).
    { intros I. apply capitalize_canonical in I; [congruence | apply normal_form_fixed]. }
    rewrite any_in_all_words in K.
    apply orb_false_iff in K as [K U]. apply orb_false_iff in K as [P N].
    apply any_in_head_false in P, N.
    assert (E1 : (capitalize t =? "Positive")%string = false).
    { apply String.eqb_neq. intros X. apply Hc. rewrite X. simpl. auto. }
    assert (E2 : (capitalize t =? "Negative")%string = false).
    { apply String.eqb_neq. intros X. apply Hc. rewrite X. simpl. auto. }
    unfold Frontend.get_sentiment_color, Frontend.get_sentiment_emoji.
    now rewrite Hl, P, N, E1, E2.
Qed.

(** X15: a text for which the analyze button is enabled passes the
    gateway's validation: the gateway never answers it with 400. *)
Theorem enabled_button_passes_validation (user_text : string) (is_healthy : bool) :
  Frontend.analyze_button_disabled user_text is_healthy = false ->
  is_healthy = true /\
  falsy user_text = false /\
  valid_text user_text /\
  (forall up model detail,
      snd (analyze up user_text model) <> HTTPError 400 detail).
Proof.
  unfold Frontend.analyze_button_disabled. intros H.
  apply orb_false_iff in H as [H Hh]. apply orb_false_iff in H as [H Hhi].
  apply orb_false_iff in H as [Hf Hlo].
  apply Z.ltb_ge in Hlo. rewrite Z.gtb_ltb in Hhi. apply Z.ltb_ge in Hhi.
  assert (Hv : valid_text user_text).
  { unfold valid_text. pose proof (len_strip_le user_text). lia. }
  split; [now destruct is_healthy|]. split; [exact Hf|]. split; [exact Hv|].
  intros up model detail. now apply analyze_valid_not_400.
Qed.

(** X16: the client's call never mixes its two answers: it returns the
    flag true with the decoded body exactly when the request is answered
    with status 200 and a body that decodes, and otherwise the flag false
    with an error message. *)
Theorem client_result_shape
        (post : Frontend.FormData -> Z -> Frontend.call_outcome Frontend.body_json)
        (text : string) (model : option string) :
  let data :=
    {| Frontend.fd_text := text;
       Frontend.fd_model := match model with
                            | Some m => if falsy m then None else Some m
                            | None => None
                            end |} in
  (exists r body,
      post data 30 = Frontend.CallReplied r /\
      Frontend.status_code r = 200 /\ Frontend.json r = inr body /\
      client_analyze post text model = (true, Frontend.Data body)) \/
  ((forall r body,
       post data 30 = Frontend.CallReplied r ->
       Frontend.status_code r = 200 -> Frontend.json r <> inr body) /\
   exists error, client_analyze post text model = (false, Frontend.Error error)).
Proof.
  intros data. unfold Frontend.analyze_sentiment. fold data.
  destruct (post data 30) as [e | r].
  - right. split; [discriminate | destruct e; eauto].
  - destruct (Frontend.status_code r =? 200) eqn:C.
    + apply Z.eqb_eq in C. destruct (Frontend.json r) as [e | body] eqn:J.
      * right. split.
        -- intros r0 body H _. injection H as <-. rewrite J. discriminate.
        -- destruct e; eauto.
      * left. exists r, body. now repeat split.
    + right. apply Z.eqb_neq in C. split; [|eauto].
      intros r0 body H S. injection H as <-. contradiction.
Qed.

(** X19: a model picked in the select box, other than its first entry
    "default", is passed on by name, and when the backend lists it, it is
    the model of the generate request; the entry "default" passes no
    model on. *)
Theorem selected_model_runs (up : Upstream) (text selected : string) :
  valid_text text -> reachable up ->
  In selected (get_available_models (listing_reply up)) ->
  selected <> "default" -> selected <> "" ->
  Frontend.model_param selected = Some selected /\
  Frontend.model_param "default" = None /\
  fst (analyze up text (Frontend.model_param selected)) =
    [GET_tags 5; GET_tags 5; POST_generate (make_payload selected (strip text)) 60] /\
  (forall res,
      snd (analyze up text (Frontend.model_param selected)) = Success res ->
      model_used res = selected).
Proof.
  intros Hv Hr Hin Hd Hne.
  assert (P : Frontend.model_param selected = Some selected).
  { unfold Frontend.model_param. apply String.eqb_neq in Hd. now rewrite Hd. }
  pose proof (select_model_requested selected _ Hne (or_introl Hin)) as S.
  rewrite P. split; [reflexivity | split; [reflexivity | split]].
  - rewrite (analyze_reachable http_exception_str up text (Some selected) Hv Hr).
    simpl. now rewrite S.
  - intros res R. apply analyze_success_inv in R as (_ & _ & T).
    apply try_generate_success_inv in T as (entry & _ & _ & ->). exact S.
Qed.

Section Served.

Variable serve : http_result -> Frontend.Reply Frontend.body_json.
Hypothesis served : serves_analyze serve.

(** What the client returns for what the handler answers. *)
Lemma relay (up : Upstream) (text : string) (model : option string) :
  client_analyze (gateway_post http_exception_str serve up) text model =
  match snd (analyze up text model) with
  | Success result => (true, Frontend.Data (Frontend.JResult result))
  | HTTPError code detail =>
      (false, Frontend.Error ("Server error (" ++ str_int code ++ "): " ++ detail))
  end.
Proof.
  destruct served as [Hok Herr].
  unfold Frontend.analyze_sentiment, gateway_post. cbn [Frontend.fd_text Frontend.fd_model].
  assert (Hm : analyze up text
                 (match model with
                  | Some m => if falsy m then None else Some m
                  | None => None
                  end) = analyze up text model).
  { destruct model as [[|c m]|]; reflexivity. }
  rewrite Hm.
  destruct (snd (analyze up text model)) as [result | code detail] eqn:R.
  - destruct (Hok result) as [S J]. now rewrite S, J.
  - destruct (Herr code detail) as [S J].
    assert (C : code <> 200).
    { apply analyze_error_codes in R. simpl in R. intros ->. intuition discriminate. }
    apply Z.eqb_neq in C. unfold Frontend.error_detail_of. now rewrite S, J, C.
Qed.

(** X18: with the inference backend down and the gateway up, the client's
    health check still reports healthy (on a report that says
    "degraded"), the analyze button stays enabled for a text within the
    bounds, and the analysis comes back as the gateway's 503. *)
Theorem degraded_backend_seen_from_client
        (up : Upstream) (user_text : string)
        (health_reply : Frontend.Reply HealthReport.t) :
  unreachable up ->
  Frontend.status_code health_reply = 200 ->
  Frontend.json health_reply = inr (snd (health_check up)) ->
  falsy user_text = false -> 3 <= len (strip user_text) -> len user_text <= 5000 ->
  Frontend.check_backend_health (Frontend.CallReplied health_reply) =
    inr (true, Some (snd (health_check up))) /\
  HealthReport.status (snd (health_check up)) = "degraded" /\
  Frontend.analyze_button_disabled user_text true = false /\
  forall model,
    client_analyze (gateway_post http_exception_str serve up) user_text model =
    (false,
     Frontend.Error
       "Server error (503): Ollama service is not available. Please ensure Ollama is running.").
Proof.
  intros Hu S J Hf Hlo Hhi.
  assert (Hv : valid_text user_text).
  { unfold valid_text. pose proof (len_strip_le user_text). lia. }
  split; [|split; [|split]].
  - unfold Frontend.check_backend_health. now rewrite S, J.
  - now apply health_degraded_iff.
  - unfold Frontend.analyze_button_disabled. rewrite Hf. cbn [orb negb].
    rewrite !orb_false_r. apply orb_false_iff. split.
    + apply Z.ltb_ge. lia.
    + rewrite Z.gtb_ltb. apply Z.ltb_ge. lia.
  - intros model. rewrite (relay up user_text model).
    now rewrite (analyze_unreachable http_exception_str up user_text model Hv Hu).
Qed.

End Served.

End ClientFacts.

(** ** The further properties on the sample worlds *)

Section SamplesMore.

Lemma clean_response_ignores_padding_and_case_witness :
  clean_response ("  " ++ "GREAT!" ++ " ") = clean_response "great!".
Proof.
  exact (clean_response_ignores_padding_and_case "  " " " "great!" "GREAT!"
           eq_refl eq_refl eq_refl).
Defined.

Lemma confidence_high_iff_keyword_witness :
  snd (analyze_sentiment starlette_str up_llama3 "I love it" None) = Success sample_result /\
  (confidence sample_result = "high" <->
   some_occurs all_words (lower (raw_response sample_result))).
Proof.
  split; [reflexivity|].
  exact (confidence_high_iff_keyword starlette_str up_llama3 "I love it" None
           sample_result eq_refl).
Defined.

Lemma error_status_codes_witness :
  snd (analyze_sentiment starlette_str backend_down "I love it" None) =
  HTTPError 503 "Ollama service is not available. Please ensure Ollama is running." /\
  (503 = 400 \/ 503 = 500 \/ 503 = 503 \/ 503 = 504).
Proof.
  split; [reflexivity|].
  exact (error_status_codes starlette_str backend_down "I love it" None 503 _ eq_refl).
Defined.

Lemma analyze_ignores_padding_witness :
  falsy "I love it" = false /\
  analyze_sentiment starlette_str up_llama3 ("  " ++ "I love it" ++ " ") None =
  analyze_sentiment starlette_str up_llama3 "I love it" None.
Proof.
  split; [reflexivity|].
  exact (proj2 (analyze_ignores_padding starlette_str up_llama3 "  " " " "I love it" None
                  eq_refl eq_refl eq_refl)).
Defined.

Lemma used_model_is_listed_witness :
  get_available_models (listing_reply up_llama3) <> [] /\
  In (model_used sample_result) (get_available_models (listing_reply up_llama3)).
Proof.
  assert (H : get_available_models (listing_reply up_llama3) <> []) by discriminate.
  split; [exact H|].
  exact (proj2 (used_model_is_listed starlette_str up_llama3 "I love it" None H)
           sample_result eq_refl).
Defined.

Lemma requested_model_honoured_witness :
  valid_text "I love it" /\ reachable up_no_models /\
  get_available_models (listing_reply up_no_models) = [] /\
  fst (analyze_sentiment starlette_str up_no_models "I love it" (Some "no-such-model")) =
  [GET_tags 5; GET_tags 5; POST_generate (make_payload "no-such-model" "I love it") 60].
Proof.
  assert (Hv : valid_text "I love it") by (unfold valid_text, len; simpl; lia).
  assert (Hm : "no-such-model" <> "") by discriminate.
  split; [exact Hv | split; [reflexivity | split; [reflexivity|]]].
  exact (proj1 (requested_model_honoured starlette_str up_no_models "I love it"
                  "no-such-model" Hv eq_refl Hm (or_intror eq_refl))).
Defined.

Lemma unavailable_iff_degraded_witness :
  valid_text "I love it" /\
  HealthReport.status (snd (health_check backend_down)) = "degraded" /\
  snd (analyze_sentiment starlette_str backend_down "I love it" None) =
  HTTPError 503 "Ollama service is not available. Please ensure Ollama is running.".
Proof.
  assert (Hv : valid_text "I love it") by (unfold valid_text, len; simpl; lia).
  split; [exact Hv | split; [reflexivity|]].
  exact (proj2 (proj1 (unavailable_iff_degraded starlette_str backend_down
                         "I love it" None Hv)) eq_refl).
Defined.

Lemma enabled_button_passes_validation_witness :
  Frontend.analyze_button_disabled "I love it" true = false /\
  valid_text "I love it".
Proof.
  split; [reflexivity|].
  exact (proj1 (proj2 (proj2 (enabled_button_passes_validation starlette_str
                                "I love it" true eq_refl)))).
Defined.

Lemma clean_response_idempotent_witness :
  ascii_only " Banana bread " = true /\
  clean_response " Banana bread " = "Banana bread" /\
  clean_response (clean_response " Banana bread ") = clean_response " Banana bread ".
Proof.
  split; [reflexivity | split; [reflexivity|]].
  exact (clean_response_idempotent " Banana bread " eq_refl).
Defined.

Lemma colour_of_gateway_label_witness :
  ascii_only "This is absolutely terrible" = true /\
  Frontend.get_sentiment_color (clean_response "This is absolutely terrible") =
  Frontend.red.
Proof.
  split; [reflexivity|].
  exact (proj1 (colour_of_gateway_label "This is absolutely terrible" eq_refl)).
Defined.

Lemma degraded_backend_seen_from_client_witness :
  unreachable backend_down /\
  Frontend.check_backend_health (Frontend.CallReplied (health_reply_of backend_down)) =
    inr (true, Some (snd (health_check backend_down))) /\
  Frontend.analyze_button_disabled "I love it" true = false /\
  Frontend.analyze_sentiment starlette_str
    (gateway_post starlette_str fastapi_serve backend_down) "I love it" None =
  (false,
   Frontend.Error
     "Server error (503): Ollama service is not available. Please ensure Ollama is running.").
Proof.
  assert (Hs : serves_analyze fastapi_serve)
    by (split; intros; split; reflexivity).
  assert (Hlo : 3 <= len (strip "I love it")) by (unfold len; simpl; lia).
  assert (Hhi : len "I love it" <= 5000) by (unfold len; simpl; lia).
  pose proof (degraded_backend_seen_from_client starlette_str fastapi_serve Hs
                backend_down "I love it" (health_reply_of backend_down)
                eq_refl eq_refl eq_refl eq_refl Hlo Hhi) as (H1 & _ & H3 & H4).
  split; [reflexivity | split; [exact H1 | split; [exact H3 | exact (H4 None)]]].
Defined.

Lemma selected_model_runs_witness :
  valid_text "I love it" /\ reachable up_llama3 /\
  In "llama3" (get_available_models (listing_reply up_llama3)) /\
  fst (analyze_sentiment starlette_str up_llama3 "I love it"
         (Frontend.model_param "llama3")) =
  [GET_tags 5; GET_tags 5; POST_generate (make_payload "llama3" "I love it") 60].
Proof.
  assert (Hv : valid_text "I love it") by (unfold valid_text, len; simpl; lia).
  assert (Hin : In "llama3" (get_available_models (listing_reply up_llama3)))
    by (simpl; auto).
  assert (Hd : "llama3" <> "default") by discriminate.
  assert (Hne : "llama3" <> "") by discriminate.
  split; [exact Hv | split; [reflexivity | split; [exact Hin|]]].
  exact (proj1 (proj2 (proj2 (selected_model_runs starlette_str up_llama3 "I love it"
                                "llama3" Hv eq_refl Hin Hd Hne)))).
Defined.

End SamplesMore.
